(** * The S3 raw-zone trigger: [lambda_handler]

    A shallow embedding of [Scripts/S3-Raw-Zone-Lambda-Trigger.py].  The
    handler has one [try]/[except Exception] block around two outbound calls
    ([boto3.client('glue')] and [glue_client.start_job_run(JobName="ad_etl")])
    and one dictionary lookup ([response["JobRunId"]]).

    Python values are an inductive type, dictionaries are [gmap string _],
    exceptions carry their class and the text [str(e)] yields, and the
    outbound calls are answered by an environment and recorded in a trace. *)

From stdpp Require Import gmap strings list.

(** ** Python values *)

#[local] Unset Elimination Schemes.

Inductive pyval : Type :=
| VNone
| VBool (b : bool)
| VInt (z : Z)
| VStr (s : string)
| VList (l : list pyval)
| VDict (d : gmap string pyval).

#[local] Set Elimination Schemes.

Abbreviation pydict := (gmap string pyval).

(** ** Exceptions *)

Module Exc.

(** The part of the built-in hierarchy the handler can meet, with two
    open-ended constructors for classes defined elsewhere (botocore's
    [ClientError], [NoCredentialsError], ...): one for classes that derive
    from [Exception], one for classes that derive from [BaseException]
    only. *)
Inductive class : Type :=
| BaseException
| SystemExit
| KeyboardInterrupt
| GeneratorExit
| Exception
| LookupError
| KeyError
| TypeError
| UserException (name : string)
| UserBaseException (name : string).

#[global] Instance class_eq_dec : EqDecision class.
Proof. solve_decision. Defined.

(** [c.__mro__]: the class followed by its bases. *)
Definition mro (c : class) : list class :=
  match c with
  | BaseException => [BaseException]
  | SystemExit => [SystemExit; BaseException]
  | KeyboardInterrupt => [KeyboardInterrupt; BaseException]
  | GeneratorExit => [GeneratorExit; BaseException]
  | Exception => [Exception; BaseException]
  | LookupError => [LookupError; Exception; BaseException]
  | KeyError => [KeyError; LookupError; Exception; BaseException]
  | TypeError => [TypeError; Exception; BaseException]
  | UserException n => [UserException n; Exception; BaseException]
  | UserBaseException n => [UserBaseException n; BaseException]
  end.

Definition issubclass (c d : class) : bool := bool_decide (d ∈ mro c).

(** A raised exception: its class and the text [str(e)] returns. *)
Record t : Type := mk { cls : class; text : string }.

Definition isinstance (e : t) (d : class) : bool := issubclass (cls e) d.

(** [str(e)] *)
Definition str (e : t) : string := text e.

End Exc.

(** ** Outcomes, calls and the effect monad *)

(** A Python computation either returns a value or raises. *)
Inductive outcome (A : Type) : Type :=
| Returned (a : A)
| Raised (e : Exc.t).
Arguments Returned {A} a.
Arguments Raised {A} e.

(** The Glue client: [start_job_run(JobName=...)] answers with a response
    (boto3 returns a [dict]) or raises. *)
Record glue_client : Type :=
  { start_job_run_impl : string -> outcome pydict }.

(** The ambient [boto3] module: [boto3.client(service)] hands out a client
    or raises. *)
Record boto3_env : Type :=
  { client_impl : string -> outcome glue_client }.

(** The outbound calls of one invocation, in the order they are made. *)
Inductive call : Type :=
| ClientCall (service : string)
| StartJobRun (JobName : string).

#[global] Instance call_eq_dec : EqDecision call.
Proof. solve_decision. Defined.

(** Computations read the environment, append to the trace of calls and
    return or raise. *)
Definition M (A : Type) : Type :=
  boto3_env -> list call -> outcome A * list call.

Definition ret {A} (a : A) : M A := fun _ tr => (Returned a, tr).

Definition raise {A} (e : Exc.t) : M A := fun _ tr => (Raised e, tr).

Definition bind {A B} (m : M A) (k : A -> M B) : M B :=
  fun env tr =>
    match m env tr with
    | (Returned a, tr') => k a env tr'
    | (Raised e, tr') => (Raised e, tr')
    end.

Notation "x <- m ;; k" := (bind m (fun x => k))
  (at level 100, m at next level, right associativity).

(** [try: body except C as e: handler e].  An exception raised by [body]
    is handed to [handler] when it is an instance of [C]; any other
    exception keeps propagating. *)
Definition try_except {A} (body : M A) (C : Exc.class)
    (handler : Exc.t -> M A) : M A :=
  fun env tr =>
    match body env tr with
    | (Returned a, tr') => (Returned a, tr')
    | (Raised e, tr') =>
        if Exc.isinstance e C then handler e env tr' else (Raised e, tr')
    end.

(** ** The operations the handler uses *)

(** [boto3.client(service)] *)
Definition boto3_client (service : string) : M glue_client :=
  fun env tr =>
    (client_impl env service, tr ++ [ClientCall service]).

(** [client.start_job_run(JobName=name)] *)
Definition start_job_run (client : glue_client) (name : string)
  : M pydict :=
  fun _ tr =>
    (start_job_run_impl client name, tr ++ [StartJobRun name]).

(** [repr(k)] of a string key.  Exact for keys without quote, backslash or
    non-printable characters; the handler's only key is ["JobRunId"]. *)
Definition repr_str (k : string) : string := "'" +:+ k +:+ "'".

(** [d[k]]: a missing key raises [KeyError(k)], whose [str] is [repr(k)]. *)
Definition getitem (d : pydict) (k : string) : M pyval :=
  match d !! k with
  | Some v => ret v
  | None => raise (Exc.mk Exc.KeyError (repr_str k))
  end.

(** The two-entry dictionary display [{k1: v1, k2: v2}]. *)
Definition dict2 (k1 : string) (v1 : pyval) (k2 : string) (v2 : pyval)
  : pydict :=
  <[k2 := v2]> (<[k1 := v1]> ∅).

(** ** The handler *)

(** The body of the [try] statement. *)
Definition try_block : M pydict :=
  glue_client <- boto3_client "glue" ;;
  response <- start_job_run glue_client "ad_etl" ;;
  JobRunId <- getitem response "JobRunId" ;;
  ret (dict2 "JobRunId" JobRunId
             "Message" (VStr "Glue job for ad_etl started successfully")).

(** The body of the [except Exception as e] clause. *)
Definition except_block (e : Exc.t) : M pydict :=
  ret (dict2 "Error" (VStr (Exc.str e))
             "Message" (VStr "Failed to start Glue job")).

Definition lambda_handler (event context : pyval) : M pydict :=
  try_except try_block Exc.Exception except_block.

(** One invocation: the handler run in [env] from the empty trace. *)
Definition invoke (env : boto3_env) (event context : pyval)
  : outcome pydict * list call :=
  lambda_handler event context env [].

Definition result (env : boto3_env) (event context : pyval)
  : outcome pydict :=
  fst (invoke env event context).

Definition calls (env : boto3_env) (event context : pyval) : list call :=
  snd (invoke env event context).

(** The number of start-job-run requests in a trace. *)
Definition is_start_job_run (c : call) : bool :=
  match c with
  | StartJobRun _ => true
  | ClientCall _ => false
  end.

Definition requests (tr : list call) : nat :=
  length (filter is_start_job_run tr).

(** The job names requested in a trace. *)
Definition job_names (tr : list call) : list string :=
  omap (fun c => match c with
                 | StartJobRun n => Some n
                 | ClientCall _ => None
                 end) tr.

(** The [try] block raises [e] in [env]. *)
Definition fails_with (env : boto3_env) (e : Exc.t) : Prop :=
  fst (try_block env []) = Raised e.

(** Whatever the handler's two outbound calls raise in [env] is an instance
    of [Exception]. *)
Definition errors_are_Exceptions (env : boto3_env) : Prop :=
  match client_impl env "glue" with
  | Raised e => Exc.isinstance e Exc.Exception = true
  | Returned c =>
      match start_job_run_impl c "ad_etl" with
      | Raised e => Exc.isinstance e Exc.Exception = true
      | Returned _ => True
      end
  end.

(** What the handler gets to see of [env]: the exception of the first
    outbound call that raises, or else the ["JobRunId"] entry of the
    response. *)
Definition glue_view (env : boto3_env) : outcome (option pyval) :=
  match client_impl env "glue" with
  | Raised e => Raised e
  | Returned c =>
      match start_job_run_impl c "ad_etl" with
      | Raised e => Raised e
      | Returned resp => Returned (resp !! "JobRunId")
      end
  end.

(** The two result variants of the specification. *)
Abbreviation Success v :=
  (dict2 "JobRunId" v
         "Message" (VStr "Glue job for ad_etl started successfully")).
Abbreviation Failure s :=
  (dict2 "Error" (VStr s) "Message" (VStr "Failed to start Glue job")).

(** ** Sample environments *)

Module Sample.

Definition client_of (r : outcome pydict) : glue_client :=
  {| start_job_run_impl := fun _ => r |}.

Definition env_of (r : outcome glue_client) : boto3_env :=
  {| client_impl := fun _ => r |}.

(** The service accepts the request and answers with run id [jr_123]. *)
Definition accepted : boto3_env :=
  env_of (Returned (client_of (Returned {[ "JobRunId" := VStr "jr_123" ]}))).

(** The service answers without a ["JobRunId"] field. *)
Definition no_run_id : boto3_env :=
  env_of (Returned (client_of (Returned ∅))).

Definition access_denied : Exc.t :=
  Exc.mk (Exc.UserException "ClientError") "AccessDenied".

(** The request is refused. *)
Definition refused : boto3_env :=
  env_of (Returned (client_of (Raised access_denied))).

(** No client can be built. *)
Definition no_client : boto3_env :=
  env_of (Raised access_denied).

Definition interrupt : Exc.t := Exc.mk Exc.KeyboardInterrupt "".

(** The request is interrupted. *)
Definition interrupted : boto3_env :=
  env_of (Returned (client_of (Raised interrupt))).

Definition not_found : Exc.t :=
  Exc.mk (Exc.UserException "EntityNotFoundException") "no such job".

(** Only the service ["glue"] and the job ["ad_etl"] are known; the response
    carries metadata besides the run id. *)
Definition picky : boto3_env :=
  {| client_impl := fun service =>
       if decide (service = "glue")
       then Returned
              {| start_job_run_impl := fun name =>
                   if decide (name = "ad_etl")
                   then Returned (<[ "ResponseMetadata" := VDict ∅ ]>
                                    {[ "JobRunId" := VStr "jr_123" ]})
                   else Raised not_found |}
       else Raised not_found |}.

End Sample.

(** ** What one invocation does *)

(** The outcome of the [except Exception] clause on [e]. *)
Definition caught (e : Exc.t) : outcome pydict :=
  if Exc.isinstance e Exc.Exception
  then Returned (Failure (Exc.str e))
  else Raised e.

Lemma try_block_unfold (env : boto3_env) :
  try_block env [] =
  match client_impl env "glue" with
  | Raised e => (Raised e, [ClientCall "glue"])
  | Returned c =>
      match start_job_run_impl c "ad_etl" with
      | Raised e => (Raised e, [ClientCall "glue"; StartJobRun "ad_etl"])
      | Returned resp =>
          match resp !! "JobRunId" with
          | Some v =>
              (Returned (Success v),
               [ClientCall "glue"; StartJobRun "ad_etl"])
          | None =>
              (Raised (Exc.mk Exc.KeyError (repr_str "JobRunId")),
               [ClientCall "glue"; StartJobRun "ad_etl"])
          end
      end
  end.
Proof.
  unfold try_block, bind, boto3_client, start_job_run, getitem; simpl.
  destruct (client_impl env "glue") as [c|e]; [|done].
  destruct (start_job_run_impl c "ad_etl") as [resp|e]; [|done].
  by destruct (resp !! "JobRunId").
Qed.

Lemma invoke_unfold (env : boto3_env) (event context : pyval) :
  invoke env event context =
  match try_block env [] with
  | (Returned d, tr) => (Returned d, tr)
  | (Raised e, tr) => (caught e, tr)
  end.
Proof.
  unfold invoke, lambda_handler, try_except, caught, except_block, ret.
  destruct (try_block env []) as [[d|e] tr]; [done|].
  by destruct (Exc.isinstance e Exc.Exception).
Qed.

Lemma KeyError_isinstance_Exception (s : string) :
  Exc.isinstance (Exc.mk Exc.KeyError s) Exc.Exception = true.
Proof. reflexivity. Qed.

Lemma invoke_spec (env : boto3_env) (event context : pyval) :
  invoke env event context =
  match client_impl env "glue" with
  | Raised e => (caught e, [ClientCall "glue"])
  | Returned c =>
      match start_job_run_impl c "ad_etl" with
      | Raised e => (caught e, [ClientCall "glue"; StartJobRun "ad_etl"])
      | Returned resp =>
          match resp !! "JobRunId" with
          | Some v =>
              (Returned (Success v),
               [ClientCall "glue"; StartJobRun "ad_etl"])
          | None =>
              (Returned (Failure (repr_str "JobRunId")),
               [ClientCall "glue"; StartJobRun "ad_etl"])
          end
      end
  end.
Proof.
  rewrite invoke_unfold, try_block_unfold.
  destruct (client_impl env "glue") as [c|e]; [|done].
  destruct (start_job_run_impl c "ad_etl") as [resp|e]; [|done].
  by destruct (resp !! "JobRunId").
Qed.

(** The cases in which the [try] block raises. *)
Lemma fails_with_inv (env : boto3_env) (e : Exc.t) :
  fails_with env e <->
  client_impl env "glue" = Raised e \/
  (exists c, client_impl env "glue" = Returned c /\
     (start_job_run_impl c "ad_etl" = Raised e \/
      exists resp, start_job_run_impl c "ad_etl" = Returned resp /\
        resp !! "JobRunId" = None /\
        e = Exc.mk Exc.KeyError (repr_str "JobRunId"))).
Proof.
  unfold fails_with. rewrite try_block_unfold.
  destruct (client_impl env "glue") as [c|e0]; simpl.
  - destruct (start_job_run_impl c "ad_etl") as [resp|e0] eqn:Hc; simpl.
    + destruct (resp !! "JobRunId") eqn:Hr; simpl; split.
      * discriminate.
      * intros [H|(c' & H1 & H2)]; [discriminate|].
        injection H1 as <-. rewrite Hc in H2.
        destruct H2 as [H2|(r' & H2 & H3 & _)]; [discriminate|].
        injection H2 as <-. congruence.
      * intros [= <-]. right. exists c. split; [done|]. right. by exists resp.
      * intros [H|(c' & H1 & H2)]; [discriminate|].
        injection H1 as <-. rewrite Hc in H2.
        destruct H2 as [H2|(r' & _ & _ & ->)]; [discriminate|done].
    + split.
      * intros [= <-]. right. exists c. split; [done|]. by left.
      * intros [H|(c' & H1 & H2)]; [discriminate|].
        injection H1 as <-. rewrite Hc in H2.
        destruct H2 as [H2|(r' & H2 & _)]; [congruence|discriminate].
  - split.
    + intros [= <-]. by left.
    + intros [H|(c' & H1 & _)]; [congruence|discriminate].
Qed.

Lemma result_fails_with (env : boto3_env) (event context : pyval) (e : Exc.t) :
  fails_with env e -> result env event context = caught e.
Proof.
  unfold fails_with, result. rewrite invoke_unfold.
  destruct (try_block env []) as [[d|e0] tr]; simpl; [done|].
  by intros [= ->].
Qed.

Lemma dom_dict2 (k1 k2 : string) (v1 v2 : pyval) :
  dom (dict2 k1 v1 k2 v2) = ({[ k1; k2 ]} : gset string).
Proof.
  unfold dict2.
  rewrite !dom_insert_L, dom_empty_L, (right_id_L ∅ (∪)).
  apply (comm_L (∪)).
Qed.

Lemma elem_of_dom_dict2 (k k1 k2 : string) (v1 v2 : pyval) :
  k ∈ dom (dict2 k1 v1 k2 v2) <-> k = k1 \/ k = k2.
Proof. by rewrite dom_dict2, elem_of_union, !elem_of_singleton. Qed.

Lemma caught_Exception (e : Exc.t) :
  Exc.isinstance e Exc.Exception = true ->
  caught e = Returned (Failure (Exc.str e)).
Proof. unfold caught. by intros ->. Qed.

Lemma caught_other (e : Exc.t) :
  Exc.isinstance e Exc.Exception = false -> caught e = Raised e.
Proof. unfold caught. by intros ->. Qed.

(** Every mapping the handler returns is one of the two variants. *)
Lemma result_variants (env : boto3_env) (event context : pyval) (d : pydict) :
  result env event context = Returned d ->
  (exists v, d = Success v) \/ (exists s, d = Failure s).
Proof.
  unfold result. rewrite invoke_spec. unfold caught.
  repeat case_match; simpl; intros; simplify_eq; eauto.
Qed.

(** The handler ignores [event] and [context]. *)
Lemma invoke_ignores_inputs (env : boto3_env) (e1 c1 e2 c2 : pyval) :
  invoke env e1 c1 = invoke env e2 c2.
Proof. reflexivity. Qed.

(** ** Totality (P1) *)

(** C1, as stated, fails: when the request is interrupted
    ([KeyboardInterrupt] is no [Exception]) the handler returns no mapping;
    the exception leaves the handler. *)
Lemma handler_not_total :
  result Sample.interrupted VNone VNone = Raised Sample.interrupt /\
  ~ (forall env event context,
       exists d, result env event context = Returned d /\
                 "Message" ∈ dom d).
Proof.
  split; [reflexivity|].
  intros H. destruct (H Sample.interrupted VNone VNone) as (d & Hd & _).
  discriminate Hd.
Qed.

(** C1, amended: for every event and context, and every behaviour of the
    client in which whatever is raised is an instance of [Exception], the
    handler returns a mapping with a ["Message"] key (and so raises
    nothing). *)
Theorem handler_total_on_Exceptions
    (env : boto3_env) (event context : pyval) :
  errors_are_Exceptions env ->
  exists d, result env event context = Returned d /\ "Message" ∈ dom d.
Proof.
  unfold errors_are_Exceptions, result. rewrite invoke_spec.
  destruct (client_impl env "glue") as [c|e].
  - destruct (start_job_run_impl c "ad_etl") as [resp|e].
    + intros _. destruct (resp !! "JobRunId"); simpl;
        eexists; (split; [reflexivity|]); apply elem_of_dom_dict2; by right.
    + intros He. simpl. rewrite (caught_Exception _ He).
      eexists; split; [reflexivity|]. apply elem_of_dom_dict2; by right.
  - intros He. simpl. rewrite (caught_Exception _ He).
    eexists; split; [reflexivity|]. apply elem_of_dom_dict2; by right.
Qed.

Lemma handler_total_on_Exceptions_witness :
  errors_are_Exceptions Sample.refused /\
  exists d, result Sample.refused VNone (VInt 0) = Returned d /\
            "Message" ∈ dom d.
Proof.
  split.
  - reflexivity.
  - apply (handler_total_on_Exceptions Sample.refused VNone (VInt 0)).
    reflexivity.
Defined.

(** ** Mutual exclusivity (P2) *)

(** C2: a mapping returned by the handler holds exactly one of the keys
    ["JobRunId"] and ["Error"]: never both, never neither. *)
Theorem result_exactly_one_variant
    (env : boto3_env) (event context : pyval) (d : pydict) :
  result env event context = Returned d ->
  ("JobRunId" ∈ dom d /\ "Error" ∉ dom d) \/
  ("Error" ∈ dom d /\ "JobRunId" ∉ dom d).
Proof.
  intros Hd. destruct (result_variants _ _ _ _ Hd) as [[v ->]|[s ->]];
    [left|right]; rewrite !elem_of_dom_dict2;
    (split; [by left|intros [?|?]; discriminate]).
Qed.

Lemma result_exactly_one_variant_witness :
  result Sample.accepted VNone VNone = Returned (Success (VStr "jr_123")) /\
  (("JobRunId" ∈ dom (Success (VStr "jr_123")) /\
    "Error" ∉ dom (Success (VStr "jr_123"))) \/
   ("Error" ∈ dom (Success (VStr "jr_123")) /\
    "JobRunId" ∉ dom (Success (VStr "jr_123")))).
Proof.
  split.
  - reflexivity.
  - apply (result_exactly_one_variant Sample.accepted VNone VNone).
    reflexivity.
Defined.

(** ** Pass-through on success (P3) *)

(** C3: when a client is handed out, the service accepts the request for
    ["ad_etl"] and its response carries run identifier ["jr_123"], the
    handler returns exactly
    [{"JobRunId": "jr_123",
      "Message": "Glue job for ad_etl started successfully"}]. *)
Theorem success_pass_through
    (env : boto3_env) (event context : pyval)
    (client : glue_client) (response : pydict) :
  client_impl env "glue" = Returned client ->
  start_job_run_impl client "ad_etl" = Returned response ->
  response !! "JobRunId" = Some (VStr "jr_123") ->
  result env event context =
  Returned (dict2 "JobRunId" (VStr "jr_123")
                  "Message" (VStr "Glue job for ad_etl started successfully")).
Proof.
  intros Hc Hr Hid. unfold result. by rewrite invoke_spec, Hc, Hr, Hid.
Qed.

Lemma success_pass_through_witness :
  result Sample.accepted (VDict ∅) VNone =
  Returned (dict2 "JobRunId" (VStr "jr_123")
                  "Message" (VStr "Glue job for ad_etl started successfully")).
Proof.
  apply (success_pass_through Sample.accepted (VDict ∅) VNone
           (Sample.client_of (Returned {[ "JobRunId" := VStr "jr_123" ]}))
           {[ "JobRunId" := VStr "jr_123" ]}); reflexivity.
Defined.

(** ** Error stringification (P4) *)

(** C4: when the request raises an error (an instance of [Exception]) whose
    [str] is ["AccessDenied"], the handler returns exactly
    [{"Error": "AccessDenied", "Message": "Failed to start Glue job"}];
    and whichever failure of the [try] block the [except] clause catches,
    its [str] is what the result holds under ["Error"]. *)
Theorem error_stringification
    (env : boto3_env) (event context : pyval)
    (client : glue_client) (e : Exc.t) :
  client_impl env "glue" = Returned client ->
  start_job_run_impl client "ad_etl" = Raised e ->
  Exc.isinstance e Exc.Exception = true ->
  Exc.str e = "AccessDenied" ->
  result env event context =
  Returned (dict2 "Error" (VStr "AccessDenied")
                  "Message" (VStr "Failed to start Glue job")) /\
  (forall env' e',
     fails_with env' e' ->
     Exc.isinstance e' Exc.Exception = true ->
     exists d, result env' event context = Returned d /\
               d !! "Error" = Some (VStr (Exc.str e'))).
Proof.
  intros Hc Hr He Hs. split.
  - unfold result. rewrite invoke_spec, Hc, Hr. simpl.
    by rewrite (caught_Exception _ He), Hs.
  - intros env' e' Hf He'.
    rewrite (result_fails_with _ _ _ _ Hf), (caught_Exception _ He').
    eexists. split; [reflexivity|]. reflexivity.
Qed.

Lemma error_stringification_witness :
  result Sample.refused VNone VNone =
  Returned (dict2 "Error" (VStr "AccessDenied")
                  "Message" (VStr "Failed to start Glue job")) /\
  (forall env' e',
     fails_with env' e' ->
     Exc.isinstance e' Exc.Exception = true ->
     exists d, result env' VNone VNone = Returned d /\
               d !! "Error" = Some (VStr (Exc.str e'))).
Proof.
  apply (error_stringification Sample.refused VNone VNone
           (Sample.client_of (Raised Sample.access_denied))
           Sample.access_denied); reflexivity.
Defined.

(** ** Single call (P5) *)

(** C5, as stated, fails: when no client can be built the handler issues no
    start-job-run request at all. *)
Lemma no_client_no_request :
  requests (calls Sample.no_client VNone VNone) = 0 /\
  ~ (forall env event context, requests (calls env event context) = 1).
Proof.
  split; [reflexivity|].
  intros H. specialize (H Sample.no_client VNone VNone). discriminate H.
Qed.

(** C5, amended: whatever the event and the context, the handler issues
    exactly one start-job-run request when [boto3.client('glue')] hands out
    a client and none when it raises; never more than one. *)
Theorem one_request_per_client
    (env : boto3_env) (event context : pyval) :
  requests (calls env event context) =
  match client_impl env "glue" with
  | Returned _ => 1
  | Raised _ => 0
  end.
Proof.
  unfold calls. rewrite invoke_spec.
  destruct (client_impl env "glue") as [c|e]; [|reflexivity].
  destruct (start_job_run_impl c "ad_etl") as [resp|e]; [|reflexivity].
  by destruct (resp !! "JobRunId").
Qed.

(** ** Job name constancy (P6) *)

(** C6: in any two invocations, whatever their events, contexts and
    environments, every job name requested is the constant ["ad_etl"]; the
    two invocations request the same name. *)
Theorem job_name_constant
    (env1 env2 : boto3_env) (event1 context1 event2 context2 : pyval)
    (n1 n2 : string) :
  n1 ∈ job_names (calls env1 event1 context1) ->
  n2 ∈ job_names (calls env2 event2 context2) ->
  n1 = "ad_etl" /\ n2 = "ad_etl" /\ n1 = n2.
Proof.
  assert (Hn : forall env ev ctx n,
             n ∈ job_names (calls env ev ctx) -> n = "ad_etl").
  { intros env ev ctx n. unfold calls. rewrite invoke_spec.
    destruct (client_impl env "glue") as [c|e]; simpl.
    - assert (n ∈ ["ad_etl"] -> n = "ad_etl") as Hone
        by (intros H; by apply list_elem_of_singleton in H).
      destruct (start_job_run_impl c "ad_etl") as [resp|e]; simpl;
        [destruct (resp !! "JobRunId")|]; exact Hone.
    - intros H. by apply elem_of_nil in H. }
  intros H1 H2. apply Hn in H1, H2. by subst.
Qed.

Lemma job_name_constant_witness :
  job_names (calls Sample.accepted (VStr "a") VNone) = ["ad_etl"] /\
  job_names (calls Sample.refused (VDict {[ "Records" := VList [] ]}) (VInt 7))
  = ["ad_etl"] /\
  "ad_etl" = "ad_etl" /\ "ad_etl" = "ad_etl" /\ "ad_etl" = "ad_etl".
Proof.
  split; [reflexivity|]. split; [reflexivity|].
  apply (job_name_constant Sample.accepted Sample.refused
           (VStr "a") VNone (VDict {[ "Records" := VList [] ]}) (VInt 7)
           "ad_etl" "ad_etl");
    vm_compute; apply list_elem_of_here.
Defined.

(** ** Acquisition failures (section 4.1, step 1) *)

(** C7: an exception raised while the client is acquired and the same
    exception raised by the request give the same outcome, through the same
    [except] clause: the Failure variant holding its [str] for every
    exception the clause catches. *)
Theorem acquisition_failure_like_request_failure
    (env_a env_r : boto3_env) (event context : pyval)
    (client : glue_client) (e : Exc.t) :
  client_impl env_a "glue" = Raised e ->
  client_impl env_r "glue" = Returned client ->
  start_job_run_impl client "ad_etl" = Raised e ->
  result env_a event context = result env_r event context /\
  (Exc.isinstance e Exc.Exception = true ->
   result env_a event context =
   Returned (dict2 "Error" (VStr (Exc.str e))
                   "Message" (VStr "Failed to start Glue job"))).
Proof.
  intros Ha Hc Hr. unfold result. rewrite !invoke_spec, Ha, Hc, Hr. simpl.
  split; [reflexivity|]. intros He. by rewrite (caught_Exception _ He).
Qed.

Lemma acquisition_failure_like_request_failure_witness :
  result Sample.no_client VNone VNone = result Sample.refused VNone VNone /\
  (Exc.isinstance Sample.access_denied Exc.Exception = true ->
   result Sample.no_client VNone VNone =
   Returned (dict2 "Error" (VStr (Exc.str Sample.access_denied))
                   "Message" (VStr "Failed to start Glue job"))).
Proof.
  apply (acquisition_failure_like_request_failure
           Sample.no_client Sample.refused VNone VNone
           (Sample.client_of (Raised Sample.access_denied))
           Sample.access_denied); reflexivity.
Defined.

(** ** A response without a run identifier *)

(** C8: when the service accepts the request but its response has no
    ["JobRunId"] field, the handler raises nothing: the [KeyError] of the
    lookup is caught and the Failure variant is returned with its [str]
    (the quoted key) under ["Error"], although the start-job-run request
    was issued. *)
Theorem missing_run_id_is_a_Failure
    (env : boto3_env) (event context : pyval)
    (client : glue_client) (response : pydict) :
  client_impl env "glue" = Returned client ->
  start_job_run_impl client "ad_etl" = Returned response ->
  response !! "JobRunId" = None ->
  fails_with env (Exc.mk Exc.KeyError "'JobRunId'") /\
  result env event context =
  Returned (dict2 "Error" (VStr "'JobRunId'")
                  "Message" (VStr "Failed to start Glue job")) /\
  calls env event context = [ClientCall "glue"; StartJobRun "ad_etl"].
Proof.
  intros Hc Hr Hid. split; [|split].
  - unfold fails_with. by rewrite try_block_unfold, Hc, Hr, Hid.
  - unfold result. by rewrite invoke_spec, Hc, Hr, Hid.
  - unfold calls. by rewrite invoke_spec, Hc, Hr, Hid.
Qed.

Lemma missing_run_id_is_a_Failure_witness :
  fails_with Sample.no_run_id (Exc.mk Exc.KeyError "'JobRunId'") /\
  result Sample.no_run_id VNone VNone =
  Returned (dict2 "Error" (VStr "'JobRunId'")
                  "Message" (VStr "Failed to start Glue job")) /\
  calls Sample.no_run_id VNone VNone =
  [ClientCall "glue"; StartJobRun "ad_etl"].
Proof.
  apply (missing_run_id_is_a_Failure Sample.no_run_id VNone VNone
           (Sample.client_of (Returned ∅)) ∅); reflexivity.
Defined.

(** ** What the catch-all catches *)

(** C9: a failure of the [try] block is converted into a result exactly
    when it is an instance of [Exception]; one that is not (a [SystemExit],
    a [KeyboardInterrupt]) leaves the handler uncaught. *)
Theorem catch_all_catches_Exception_only
    (env : boto3_env) (event context : pyval) (e : Exc.t) :
  fails_with env e ->
  ((exists d, result env event context = Returned d) <->
   Exc.isinstance e Exc.Exception = true) /\
  (result env event context = Raised e <->
   Exc.isinstance e Exc.Exception = false) /\
  (Exc.cls e = Exc.SystemExit \/ Exc.cls e = Exc.KeyboardInterrupt ->
   result env event context = Raised e).
Proof.
  intros Hf. rewrite (result_fails_with _ _ _ _ Hf). unfold caught.
  destruct (Exc.isinstance e Exc.Exception) eqn:He.
  - split; [|split].
    + split; [done|]. intros _. by eexists.
    + split; discriminate.
    + destruct e as [c s]. simpl. intros [->| ->]; discriminate He.
  - split; [|split].
    + split; [|discriminate]. intros [d Hd]. discriminate Hd.
    + done.
    + done.
Qed.

Lemma catch_all_catches_Exception_only_witness :
  ((exists d, result Sample.interrupted VNone VNone = Returned d) <->
   Exc.isinstance Sample.interrupt Exc.Exception = true) /\
  (result Sample.interrupted VNone VNone = Raised Sample.interrupt <->
   Exc.isinstance Sample.interrupt Exc.Exception = false) /\
  (Exc.cls Sample.interrupt = Exc.SystemExit \/
   Exc.cls Sample.interrupt = Exc.KeyboardInterrupt ->
   result Sample.interrupted VNone VNone = Raised Sample.interrupt).
Proof.
  apply (catch_all_catches_Exception_only
           Sample.interrupted VNone VNone Sample.interrupt).
  reflexivity.
Defined.

(** ** The keys of the result *)

(** C10: a mapping returned by the handler has exactly two keys:
    ["JobRunId"] and ["Message"] when it is the Success variant, ["Error"]
    and ["Message"] when it is the Failure variant; there is no third
    variant and no other key. *)
Theorem result_has_two_keys
    (env : boto3_env) (event context : pyval) (d : pydict) :
  result env event context = Returned d ->
  size d = 2 /\
  ((exists v, d = dict2 "JobRunId" v
                  "Message" (VStr "Glue job for ad_etl started successfully")
              /\ dom d = ({[ "JobRunId"; "Message" ]} : gset string)) \/
   (exists s, d = dict2 "Error" (VStr s)
                  "Message" (VStr "Failed to start Glue job")
              /\ dom d = ({[ "Error"; "Message" ]} : gset string))).
Proof.
  intros Hd. destruct (result_variants _ _ _ _ Hd) as [[v ->]|[s ->]].
  - split; [|left; exists v; split; [done|apply dom_dict2]].
    unfold dict2. rewrite !map_size_insert_None; [done|done|].
    by rewrite lookup_insert_ne.
  - split; [|right; exists s; split; [done|apply dom_dict2]].
    unfold dict2. rewrite !map_size_insert_None; [done|done|].
    by rewrite lookup_insert_ne.
Qed.

Lemma result_has_two_keys_witness :
  size (Failure "AccessDenied") = 2 /\
  ((exists v, Failure "AccessDenied" = Success v
              /\ dom (Failure "AccessDenied")
                 = ({[ "JobRunId"; "Message" ]} : gset string)) \/
   (exists s, Failure "AccessDenied" = Failure s
              /\ dom (Failure "AccessDenied")
                 = ({[ "Error"; "Message" ]} : gset string))).
Proof.
  apply (result_has_two_keys Sample.no_client VNone VNone).
  reflexivity.
Defined.

(** * Further properties of [lambda_handler] *)

Lemma Success_lookup_Error (v : pyval) :
  (Success v : pydict) !! "Error" = None.
Proof. reflexivity. Qed.

Lemma Failure_lookup_Error (s : string) :
  (Failure s : pydict) !! "Error" = Some (VStr s).
Proof. reflexivity. Qed.

Lemma Success_lookup_JobRunId (v : pyval) :
  (Success v : pydict) !! "JobRunId" = Some v.
Proof. reflexivity. Qed.

Lemma Success_not_Failure (v : pyval) (s : string) :
  (Success v : pydict) <> Failure s.
Proof.
  intros H. apply (f_equal (fun d : pydict => d !! "Error")) in H.
  rewrite Success_lookup_Error, Failure_lookup_Error in H. discriminate H.
Qed.

Lemma Success_inj (v w : pyval) :
  (Success v : pydict) = Success w -> v = w.
Proof.
  intros H. apply (f_equal (fun d : pydict => d !! "JobRunId")) in H.
  rewrite !Success_lookup_JobRunId in H. by injection H.
Qed.

Lemma caught_not_Success (e : Exc.t) (v : pyval) :
  caught e <> Returned (Success v).
Proof.
  unfold caught. destruct (Exc.isinstance e Exc.Exception); [|discriminate].
  intros H. apply (Success_not_Failure v (Exc.str e)). congruence.
Qed.


(** X1: the result depends on the environment only through what
    [boto3.client('glue')] and [start_job_run(JobName="ad_etl")] answer and,
    of an accepted request's response, only through its ["JobRunId"] entry:
    other services, other job names, other response fields, the event and
    the context have no influence. *)
Theorem result_depends_on_glue_view
    (env1 env2 : boto3_env) (event1 context1 event2 context2 : pyval) :
  glue_view env1 = glue_view env2 ->
  result env1 event1 context1 = result env2 event2 context2.
Proof.
  unfold glue_view, result. rewrite !invoke_spec.
  destruct (client_impl env1 "glue") as [c1|e1],
           (client_impl env2 "glue") as [c2|e2]; simpl.
  - destruct (start_job_run_impl c1 "ad_etl") as [r1|e1],
             (start_job_run_impl c2 "ad_etl") as [r2|e2]; simpl;
      try discriminate.
    + intros [= ->]. by destruct (r2 !! "JobRunId").
    + by intros [= ->].
  - destruct (start_job_run_impl c1 "ad_etl") as [r1|e1]; simpl;
      [discriminate|]. by intros [= ->].
  - destruct (start_job_run_impl c2 "ad_etl") as [r2|e2']; simpl;
      [discriminate|]. by intros [= ->].
  - by intros [= ->].
Qed.

Lemma result_depends_on_glue_view_witness :
  glue_view Sample.accepted = glue_view Sample.picky /\
  result Sample.accepted VNone VNone =
  result Sample.picky (VDict {[ "Records" := VList [] ]}) (VInt 1).
Proof.
  split.
  - reflexivity.
  - apply (result_depends_on_glue_view Sample.accepted Sample.picky).
    reflexivity.
Defined.

(** X2: an exception that leaves the handler is never one of the handler's
    own (the [KeyError] of the lookup is always caught): it was raised by
    [boto3.client('glue')] or by [start_job_run], and it is no instance of
    [Exception]. *)
Theorem raised_comes_from_boto3
    (env : boto3_env) (event context : pyval) (e : Exc.t) :
  result env event context = Raised e ->
  Exc.isinstance e Exc.Exception = false /\
  (client_impl env "glue" = Raised e \/
   exists c, client_impl env "glue" = Returned c /\
             start_job_run_impl c "ad_etl" = Raised e).
Proof.
  unfold result. rewrite invoke_spec. unfold caught.
  destruct (client_impl env "glue") as [c|e0]; simpl.
  - destruct (start_job_run_impl c "ad_etl") as [resp|e0] eqn:Hr; simpl.
    + destruct (resp !! "JobRunId"); discriminate.
    + destruct (Exc.isinstance e0 Exc.Exception) eqn:He; [discriminate|].
      intros [= <-]. split; [done|]. right. by exists c.
  - destruct (Exc.isinstance e0 Exc.Exception) eqn:He; [discriminate|].
    intros [= <-]. split; [done|]. by left.
Qed.

Lemma raised_comes_from_boto3_witness :
  Exc.isinstance Sample.interrupt Exc.Exception = false /\
  (client_impl Sample.interrupted "glue" = Raised Sample.interrupt \/
   exists c, client_impl Sample.interrupted "glue" = Returned c /\
             start_job_run_impl c "ad_etl" = Raised Sample.interrupt).
Proof.
  apply (raised_comes_from_boto3 Sample.interrupted VNone VNone).
  reflexivity.
Defined.

(** X3: the handler returns the Success variant with run identifier [v]
    exactly when a client was handed out, the request for ["ad_etl"] was
    accepted and the response holds [v] under ["JobRunId"]; [v] is passed on
    as it is, whatever its type. *)
Theorem success_iff_accepted
    (env : boto3_env) (event context : pyval) (v : pyval) :
  result env event context =
  Returned (dict2 "JobRunId" v
                  "Message" (VStr "Glue job for ad_etl started successfully"))
  <->
  exists c resp, client_impl env "glue" = Returned c /\
                 start_job_run_impl c "ad_etl" = Returned resp /\
                 resp !! "JobRunId" = Some v.
Proof.
  unfold result. rewrite invoke_spec. split.
  - destruct (client_impl env "glue") as [c|e]; simpl.
    + destruct (start_job_run_impl c "ad_etl") as [resp|e] eqn:Hr; simpl.
      * destruct (resp !! "JobRunId") as [w|] eqn:Hw; simpl.
        -- intros H. assert (w = v) as ->
             by (apply Success_inj; congruence).
           by exists c, resp.
        -- intros H. exfalso.
           apply (Success_not_Failure v (repr_str "JobRunId")). congruence.
      * intros H. by apply caught_not_Success in H.
    + intros H. by apply caught_not_Success in H.
  - intros (c & resp & -> & -> & ->). reflexivity.
Qed.

(** X4: in a mapping returned by the handler the ["Message"] text tells the
    variant: it is the success text exactly when ["JobRunId"] is a key and
    the failure text exactly when ["Error"] is a key. *)
Theorem message_tells_variant
    (env : boto3_env) (event context : pyval) (d : pydict) :
  result env event context = Returned d ->
  (d !! "Message" = Some (VStr "Glue job for ad_etl started successfully")
   <-> "JobRunId" ∈ dom d) /\
  (d !! "Message" = Some (VStr "Failed to start Glue job")
   <-> "Error" ∈ dom d).
Proof.
  intros Hd. destruct (result_variants _ _ _ _ Hd) as [[v ->]|[s ->]];
    rewrite !elem_of_dom_dict2; split; split;
    try (intros _; reflexivity);
    try (intros _; by left);
    try (intros [= ?]);
    try (intros [?|?]; discriminate).
Qed.

Lemma message_tells_variant_witness :
  ((Failure "AccessDenied" : pydict) !! "Message"
   = Some (VStr "Glue job for ad_etl started successfully")
   <-> "JobRunId" ∈ dom (Failure "AccessDenied" : pydict)) /\
  ((Failure "AccessDenied" : pydict) !! "Message"
   = Some (VStr "Failed to start Glue job")
   <-> "Error" ∈ dom (Failure "AccessDenied" : pydict)).
Proof.
  apply (message_tells_variant Sample.refused VNone VNone).
  reflexivity.
Defined.

(** X5: every invocation acquires the client for the service ["glue"]
    exactly once and first; the request for ["ad_etl"] follows when a
    client was handed out, and nothing else is called. *)
Theorem calls_shape (env : boto3_env) (event context : pyval) :
  calls env event context =
  match client_impl env "glue" with
  | Returned _ => [ClientCall "glue"; StartJobRun "ad_etl"]
  | Raised _ => [ClientCall "glue"]
  end.
Proof.
  unfold calls. rewrite invoke_spec.
  destruct (client_impl env "glue") as [c|e]; [|reflexivity].
  destruct (start_job_run_impl c "ad_etl") as [resp|e]; [|reflexivity].
  by destruct (resp !! "JobRunId").
Qed.


(** X7: the result does not tell whether a request went out: an exception
    raised while the client is acquired and the same exception raised by
    the request give the same result, with no request issued in the first
    case and one in the second. *)
Theorem result_hides_the_request
    (env_a env_r : boto3_env) (event context : pyval)
    (client : glue_client) (e : Exc.t) :
  client_impl env_a "glue" = Raised e ->
  client_impl env_r "glue" = Returned client ->
  start_job_run_impl client "ad_etl" = Raised e ->
  result env_a event context = result env_r event context /\
  requests (calls env_a event context) = 0 /\
  requests (calls env_r event context) = 1.
Proof.
  intros Ha Hc Hr. unfold result, calls.
  by rewrite !invoke_spec, Ha, Hc, Hr.
Qed.

Lemma result_hides_the_request_witness :
  result Sample.no_client VNone VNone = result Sample.refused VNone VNone /\
  requests (calls Sample.no_client VNone VNone) = 0 /\
  requests (calls Sample.refused VNone VNone) = 1.
Proof.
  apply (result_hides_the_request Sample.no_client Sample.refused VNone VNone
           (Sample.client_of (Raised Sample.access_denied))
           Sample.access_denied); reflexivity.
Defined.
